(** * Bangladesh police crime dashboard: filter and aggregation core

    A shallow embedding of [app.py].  The dashboard keeps one immutable
    dataframe [df]; every callback first selects rows with a boolean mask
    and then runs a handful of pandas aggregations over the selection.

    Conventions of the embedding:
    - a dataframe is the [list] of its rows, in index order;
    - integer columns are [Z] (int64 wrap-around is not modelled);
    - the float64 results of [mean] are exact rationals, [None] being NaN;
    - a [Series] indexed by labels is an association list, in index order;
    - an operation that raises in Python returns [None]. *)

From Stdlib Require Import ZArith QArith Qround List String Ascii Bool Lia.
From Stdlib Require Import Sorted Permutation DecimalString.
Import ListNotations.

Local Open Scope string_scope.
Local Open Scope list_scope.
Local Open Scope Z_scope.

(** ** Data model *)

(** The sixteen crime columns of the CSV. *)
Inductive Crime : Set :=
  | Dacoity | Robbery | Murder | Speedy_Trial | Riot
  | Woman_Child_Repression | Kidnapping | Police_Assault
  | Burglary | Theft | Other_Cases | Arms_Act | Explosive_Act
  | Narcotics | Smuggling | Recovery_Cases.

(** [crime_columns], in the order the source lists them. *)
Definition crime_columns : list Crime :=
  [Dacoity; Robbery; Murder; Speedy_Trial; Riot;
   Woman_Child_Repression; Kidnapping; Police_Assault;
   Burglary; Theft; Other_Cases; Arms_Act; Explosive_Act;
   Narcotics; Smuggling; Recovery_Cases].

(** The column label of a crime column. *)
Definition crime_name (c : Crime) : string :=
  match c with
  | Dacoity => "Dacoity" | Robbery => "Robbery" | Murder => "Murder"
  | Speedy_Trial => "Speedy_Trial" | Riot => "Riot"
  | Woman_Child_Repression => "Woman_Child_Repression"
  | Kidnapping => "Kidnapping" | Police_Assault => "Police_Assault"
  | Burglary => "Burglary" | Theft => "Theft"
  | Other_Cases => "Other_Cases" | Arms_Act => "Arms_Act"
  | Explosive_Act => "Explosive_Act" | Narcotics => "Narcotics"
  | Smuggling => "Smuggling" | Recovery_Cases => "Recovery_Cases"
  end.

(** The [Date] column: [pd.to_datetime(Year-Month-01)], a first-of-month
    timestamp, kept as its year and month number. *)
Record Timestamp : Set := mkTimestamp { ts_year : Z; ts_month : Z }.

(** One row of [df] after the preprocessing step.  [cases] gives the value
    of each crime column. *)
Record Row : Type := mkRow {
  Month : string;
  Unit : string;
  cases : Crime -> Z;
  Total_Cases : Z;
  Date : Timestamp
}.

(** [df['Year'] = df['Date'].dt.year] *)
Definition Year (r : Row) : Z := ts_year (Date r).

(** [df['Month_Num'] = df['Date'].dt.month] *)
Definition Month_Num (r : Row) : Z := ts_month (Date r).

(** [df[c]] at one row, for a crime column [c]. *)
Definition crime_col (c : Crime) (r : Row) : Z := cases r c.

Definition DataFrame : Type := list Row.

(** ** Row selection *)

(** [Series.isin(values)] at one cell. *)
Definition isin (u : string) (values : list string) : bool :=
  existsb (String.eqb u) values.

(** The boolean mask both callbacks build:
    [(df['Unit'].isin(selected_units)) & (df['Year'] >= year_range[0])
     & (df['Year'] <= year_range[1])]. *)
Definition row_mask (selected_units : list string) (year_range : Z * Z)
    (r : Row) : bool :=
  isin (Unit r) selected_units
  && (Year r >=? fst year_range)
  && (Year r <=? snd year_range).

(** [filtered_df = df[mask]]: boolean indexing keeps the rows whose mask is
    true, in index order. *)
Definition filtered_df (df : DataFrame) (selected_units : list string)
    (year_range : Z * Z) : DataFrame :=
  filter (row_mask selected_units year_range) df.

(** [DataFrame.head(n)] *)
Definition head (n : nat) (d : DataFrame) : DataFrame := firstn n d.

(** The rows the data tab shows: [display_df = filtered_df.head(50)]. *)
Definition display_df (df : DataFrame) (selected_units : list string)
    (year_range : Z * Z) : DataFrame :=
  head 50 (filtered_df df selected_units year_range).

(** Index labels (positions in [df]) of the rows a predicate keeps, counted
    from [i]. *)
Fixpoint kept_index (p : Row -> bool) (i : nat) (d : DataFrame) : list nat :=
  match d with
  | [] => []
  | r :: d' => if p r then i :: kept_index p (S i) d'
               else kept_index p (S i) d'
  end.

(** ** The pandas operations the callbacks use *)

(** Group keys are compared the way pandas sorts them: integers
    numerically, strings by code point, timestamps chronologically, tuples
    lexicographically. *)
Class KeyOrder (K : Type) : Type := key_compare : K -> K -> comparison.

#[export] Instance Z_KeyOrder : KeyOrder Z := Z.compare.

#[export] Instance string_KeyOrder : KeyOrder string := String.compare.

#[export] Instance Timestamp_KeyOrder : KeyOrder Timestamp :=
  fun a b =>
    match Z.compare (ts_year a) (ts_year b) with
    | Eq => Z.compare (ts_month a) (ts_month b)
    | c => c
    end.

#[export] Instance pair_KeyOrder {A B : Type} `{KeyOrder A} `{KeyOrder B} :
    KeyOrder (A * B) :=
  fun x y =>
    match key_compare (fst x) (fst y) with
    | Eq => key_compare (snd x) (snd y)
    | c => c
    end.

(** What the group-by lemmas need of a key order: a strict total order
    whose [Eq] is equality. *)
Class KeyOrderLaws (K : Type) `{KeyOrder K} : Prop := {
  key_compare_eq : forall a b : K, key_compare a b = Eq <-> a = b;
  key_compare_antisym :
    forall a b : K, key_compare b a = CompOpp (key_compare a b);
  key_compare_trans :
    forall a b c : K,
      key_compare a b = Lt -> key_compare b c = Lt -> key_compare a c = Lt
}.

(** Whether a key is [k]. *)
Definition is_key {K : Type} `{KeyOrder K} (k k' : K) : bool :=
  match key_compare k' k with
  | Eq => true
  | _ => false
  end.

(** The rows of the group labelled [k] (none when there is no such
    group). *)
Fixpoint get_group {K : Type} `{KeyOrder K} (k : K)
    (gs : list (K * list Row)) : list Row :=
  match gs with
  | [] => []
  | g :: gs' => if is_key k (fst g) then snd g else get_group k gs'
  end.

(** Group labels in strictly ascending order. *)
Definition ascending {K : Type} `{KeyOrder K} (ks : list K) : Prop :=
  StronglySorted (fun a b => key_compare a b = Lt) ks.

Section GroupBy.
Context {K : Type} `{KeyOrder K}.

(** Put row [r] into the group of key [k]; groups stay in ascending key
    order and a group keeps its rows in frame order. *)
Fixpoint add_to_group (k : K) (r : Row) (gs : list (K * list Row))
    : list (K * list Row) :=
  match gs with
  | [] => [(k, [r])]
  | (k', rs) :: gs' =>
      match key_compare k k' with
      | Lt => (k, [r]) :: gs
      | Eq => (k', rs ++ [r]) :: gs'
      | Gt => (k', rs) :: add_to_group k r gs'
      end
  end.

(** [DataFrame.groupby(key)] with the default [sort=True]: one group per
    key value present, in ascending key order. *)
Definition groupby (key : Row -> K) (d : DataFrame) : list (K * list Row) :=
  fold_left (fun gs r => add_to_group (key r) r gs) d [].
End GroupBy.

(** [Series.sum()] of an integer series; the empty sum is 0. *)
Definition series_sum (vals : list Z) : Z := fold_left Z.add vals 0.

(** [Series.mean()] of an integer series: the sum over the count, NaN
    ([None]) for the empty series. *)
Definition series_mean (vals : list Z) : option Q :=
  match vals with
  | [] => None
  | _ :: _ => Some (Qmake (series_sum vals) (Pos.of_nat (List.length vals)))
  end.

(** [d[col].sum()] *)
Definition col_sum (col : Row -> Z) (d : DataFrame) : Z :=
  series_sum (map col d).

(** [groupby(...)[col].sum()] *)
Definition agg_sum {K : Type} (col : Row -> Z) (gs : list (K * list Row))
    : list (K * Z) :=
  map (fun g => (fst g, col_sum col (snd g))) gs.

(** [groupby(...)[col].mean()] *)
Definition agg_mean {K : Type} (col : Row -> Z) (gs : list (K * list Row))
    : list (K * option Q) :=
  map (fun g => (fst g, series_mean (map col (snd g)))) gs.

(** [d[cols].sum()]: a series of the column sums, labelled in the order of
    [cols]. *)
Definition cols_sum (cols : list Crime) (d : DataFrame) : list (Crime * Z) :=
  map (fun c => (c, col_sum (crime_col c) d)) cols.

(** [Series.idxmax()]: the label of the first occurrence of the maximum;
    raises on an empty series. *)
Fixpoint idxmax_from {L : Type} (best : L * Z) (s : list (L * Z)) : L :=
  match s with
  | [] => fst best
  | x :: s' => if snd x >? snd best then idxmax_from x s'
               else idxmax_from best s'
  end.

Definition idxmax {L : Type} (s : list (L * Z)) : option L :=
  match s with
  | [] => None
  | x :: s' => Some (idxmax_from x s')
  end.

(** [Series.sort_values(ascending=False)].  Entries with equal values keep
    their index order (what numpy's default sort does on the short series
    this dashboard produces); the order of ties plays no part below. *)
Fixpoint insert_desc {L : Type} (x : L * Z) (s : list (L * Z))
    : list (L * Z) :=
  match s with
  | [] => [x]
  | y :: s' => if snd x <? snd y then y :: insert_desc x s' else x :: s
  end.

Definition sort_values_desc {L : Type} (s : list (L * Z)) : list (L * Z) :=
  fold_right insert_desc [] s.

(** [Series.unique()]: the distinct values, in order of first appearance. *)
Fixpoint unique (vals : list string) : list string :=
  match vals with
  | [] => []
  | v :: vals' => v :: filter (fun w => negb (String.eqb v w)) (unique vals')
  end.

(** The rows of a frame whose [key] is [k], in frame order. *)
Definition rows_with {K : Type} `{KeyOrder K} (key : Row -> K) (k : K)
    (d : DataFrame) : DataFrame :=
  filter (fun r => is_key k (key r)) d.

(** Chronological order of first-of-month timestamps. *)
Definition earlier (a b : Timestamp) : Prop :=
  ts_year a < ts_year b \/ (ts_year a = ts_year b /\ ts_month a < ts_month b).

(** Descending order of the values of a series. *)
Definition at_least {L : Type} (a b : L * Z) : Prop := snd b <= snd a.

(** The values [Date.dt.month] can take. *)
Definition month_numbers : list Z := [1; 2; 3; 4; 5; 6; 7; 8; 9; 10; 11; 12].

(** The grouping key of [groupby(['Year', 'Month'])]. *)
Definition year_month (r : Row) : Z * string := (Year r, Month r).

(** ** The monthly mean, as the specification words it *)

Definition year_month_eq_dec (a b : Z * string) : {a = b} + {a <> b}.
Proof. decide equality; [apply string_dec | apply Z.eq_dec]. Defined.

(** The distinct (year, month) pairs present in the view. *)
Definition year_months (view : DataFrame) : list (Z * string) :=
  nodup year_month_eq_dec (map year_month view).

(** The sum of [Total_Cases] within the group of one pair. *)
Definition month_total (view : DataFrame) (p : Z * string) : Z :=
  series_sum
    (map Total_Cases
       (filter (fun r => if year_month_eq_dec (year_month r) p
                         then true else false) view)).

(** The arithmetic mean of the group sums over the distinct pairs. *)
Definition mean_of_month_totals (view : DataFrame) : Q :=
  Qmake (series_sum (map (month_total view) (year_months view)))
        (Pos.of_nat (List.length (year_months view))).

(** ** Number formatting *)

Definition digits (n : N) : list ascii :=
  list_ascii_of_string (NilZero.string_of_uint (N.to_uint n)).

(** Insert the thousands separators into a digit list given least
    significant digit first. *)
Fixpoint group_thousands (ds : list ascii) : list ascii :=
  match ds with
  | a :: b :: c :: ((_ :: _) as rest) =>
      a :: b :: c :: ","%char :: group_thousands rest
  | _ => ds
  end.

Definition thousands (n : N) : string :=
  string_of_list_ascii (rev (group_thousands (rev (digits n)))).

(** [f"{n:,.0f}"] for an integer [n] (taken as exact: the conversion goes
    through a float, which is exact below 2^53). *)
Definition format_int (n : Z) : string :=
  if n <? 0 then String.append "-" (thousands (Z.abs_N n))
  else thousands (Z.to_N n).

(** Rounding to the nearest integer, halves to even, as the [.0f]
    conversion does. *)
Definition round_half_even (q : Q) : Z :=
  let f := Qfloor q in
  match Qcompare (q - inject_Z f) (1 # 2) with
  | Lt => f
  | Gt => f + 1
  | Eq => if Z.even f then f else f + 1
  end.

(** [f"{x:,.0f}"] for a float [x]: NaN prints as [nan], a negative value
    keeps its sign even when it rounds to zero. *)
Definition format_float (x : option Q) : string :=
  match x with
  | None => "nan"
  | Some q =>
      let n := round_half_even q in
      match Qcompare q 0 with
      | Lt => String.append "-" (thousands (Z.abs_N n))
      | _ => thousands (Z.to_N n)
      end
  end.

(** [f"{n}"] for a length. *)
Definition format_len (n : nat) : string :=
  NilZero.string_of_uint (Nat.to_uint n).

(** ** Summary cards *)

(** [filtered_df['Total_Cases'].sum()] *)
Definition total_cases (view : DataFrame) : Z := col_sum Total_Cases view.

(** [filtered_df.groupby(['Year', 'Month'])['Total_Cases'].sum()] *)
Definition monthly_totals (view : DataFrame) : list ((Z * string) * Z) :=
  agg_sum Total_Cases (groupby year_month view).

(** [... .sum().mean()] *)
Definition avg_monthly (view : DataFrame) : option Q :=
  series_mean (map snd (monthly_totals view)).

(** [filtered_df[crime_columns].sum().idxmax()] *)
Definition peak_crime (view : DataFrame) : option Crime :=
  idxmax (cols_sum crime_columns view).

(** [len(filtered_df['Unit'].unique())] *)
Definition total_units (view : DataFrame) : nat :=
  List.length (unique (map Unit view)).

(** The callback behind the four cards; [None] when a step raises. *)
Definition update_summary_cards (df : DataFrame)
    (selected_units : list string) (year_range : Z * Z)
    : option (string * string * string * string) :=
  let view := filtered_df df selected_units year_range in
  match peak_crime view with
  | None => None
  | Some peak =>
      Some (format_int (total_cases view),
            format_float (avg_monthly view),
            crime_name peak,
            format_len (total_units view))
  end.

(** ** Chart data *)

(** The data handed to [px.pie]. *)
Record PieChart : Set := mkPie {
  pie_names : list string;
  pie_values : list Z
}.

(** One [go.Scatter] trace. *)
Record Scatter : Set := mkScatter {
  trace_name : string;
  trace_x : list Timestamp;
  trace_y : list Z
}.

(** The data handed to [px.line] and [px.bar]: the x and the y values. *)
Record XYChart (X Y : Type) : Type := mkXY {
  chart_x : list X;
  chart_y : list Y
}.
Arguments mkXY {X Y} _ _.
Arguments chart_x {X Y} _.
Arguments chart_y {X Y} _.

(** Python truthiness of the crime dropdown's value: [None] and the empty
    list are both false. *)
Definition truthy (selected_crimes : option (list Crime)) : bool :=
  match selected_crimes with
  | None | Some [] => false
  | Some (_ :: _) => true
  end.

(** The list a true selection holds. *)
Definition selection (selected_crimes : option (list Crime)) : list Crime :=
  match selected_crimes with
  | Some l => l
  | None => []
  end.

(** [if not selected_crimes: selected_crimes = crime_columns[:5]] *)
Definition pie_crimes (selected_crimes : option (list Crime)) : list Crime :=
  if negb (truthy selected_crimes) then firstn 5 crime_columns
  else selection selected_crimes.

(** [crime_totals = filtered_df[selected_crimes].sum()] *)
Definition crime_totals (view : DataFrame)
    (selected_crimes : option (list Crime)) : list (Crime * Z) :=
  cols_sum (pie_crimes selected_crimes) view.

Definition create_crime_pie_chart (view : DataFrame)
    (selected_crimes : option (list Crime)) : PieChart :=
  let totals := crime_totals view selected_crimes in
  mkPie (map (fun e => crime_name (fst e)) totals) (map snd totals).

(** [monthly_data = filtered_df.groupby('Date')['Total_Cases'].sum()
                      .reset_index()] *)
Definition monthly_data (view : DataFrame) : list (Timestamp * Z) :=
  agg_sum Total_Cases (groupby Date view).

Definition create_monthly_trend_chart (view : DataFrame)
    : XYChart Timestamp Z :=
  let m := monthly_data view in
  mkXY (map fst m) (map snd m).

(** [unit_totals = filtered_df.groupby('Unit')['Total_Cases'].sum()
                     .sort_values(ascending=False).head(10)] *)
Definition unit_totals (view : DataFrame) : list (string * Z) :=
  firstn 10 (sort_values_desc (agg_sum Total_Cases (groupby Unit view))).


(** [if not selected_crimes: selected_crimes = ['Murder', 'Robbery',
    'Theft']] *)
Definition trend_crimes (selected_crimes : option (list Crime))
    : list Crime :=
  if negb (truthy selected_crimes) then [Murder; Robbery; Theft]
  else selection selected_crimes.

(** [monthly_crimes = filtered_df.groupby('Date')[selected_crimes].sum()
                        .reset_index()]: per date, the sum of each selected
    column. *)
Definition monthly_crimes (view : DataFrame) (cols : list Crime)
    : list (Timestamp * list (Crime * Z)) :=
  map (fun g => (fst g, cols_sum cols (snd g))) (groupby Date view).

(** [monthly_crimes[crime]], for a [crime] among the frame's columns. *)
Definition crimes_column (c : Crime)
    (m : list (Timestamp * list (Crime * Z))) : list Z :=
  flat_map (fun row =>
              match find (fun e => String.eqb (crime_name (fst e))
                                              (crime_name c)) (snd row) with
              | Some e => [snd e]
              | None => []
              end) m.

(** One trace per selected crime, in selection order. *)
Definition create_crime_trends_chart (view : DataFrame)
    (selected_crimes : option (list Crime)) : list Scatter :=
  let cols := trend_crimes selected_crimes in
  let m := monthly_crimes view cols in
  map (fun crime => mkScatter (crime_name crime) (map fst m)
                              (crimes_column crime m)) cols.

(** [monthly_avg = filtered_df.groupby('Month_Num')['Total_Cases'].mean()
                     .reset_index()] *)
Definition monthly_avg (view : DataFrame) : list (Z * option Q) :=
  agg_mean Total_Cases (groupby Month_Num view).

Definition create_seasonal_patterns_chart (view : DataFrame)
    : XYChart Z (option Q) :=
  let m := monthly_avg view in
  mkXY (map fst m) (map snd m).

(** ** The raw-data tab *)

(** What a tab shows. *)
Inductive TabContent : Type :=
  | Overview (pie : PieChart) (trend : XYChart Timestamp Z)
  | Trends (traces : list Scatter)
  | Analysis (seasonal : XYChart Z (option Q))
  | RawData (rows : DataFrame).

(** The tab callback; a tab value outside the four known ones falls
    through every branch and gives Python's [None]. *)
Definition render_tab_content (df : DataFrame) (selected_tab : string)
    (selected_units : list string) (year_range : Z * Z)
    (selected_crimes : option (list Crime)) : option TabContent :=
  let view := filtered_df df selected_units year_range in
  if String.eqb selected_tab "tab-overview" then
    Some (Overview (create_crime_pie_chart view selected_crimes)
                   (create_monthly_trend_chart view))
  else if String.eqb selected_tab "tab-trends" then
    Some (Trends (create_crime_trends_chart view selected_crimes))
  else if String.eqb selected_tab "tab-analysis" then
    Some (Analysis (create_seasonal_patterns_chart view))
  else if String.eqb selected_tab "tab-data" then
    Some (RawData (display_df df selected_units year_range))
  else None.

(** A character that does not occur in a printed number. *)
Definition plain (c : ascii) : Prop := c <> "n"%char.

(** ** Dropdown options *)

(** Python's [sorted] on strings, as an insertion sort by code point. *)
Fixpoint insert_sorted (x : string) (l : list string) : list string :=
  match l with
  | [] => [x]
  | y :: l' =>
      match key_compare x y with
      | Gt => y :: insert_sorted x l'
      | _ => x :: l
      end
  end.

Definition sorted (l : list string) : list string :=
  fold_right insert_sorted [] l.

(** [police_units = sorted(df['Unit'].unique())], the options of the unit
    dropdown. *)
Definition police_units (df : DataFrame) : list string :=
  sorted (unique (map Unit df)).

(** ** A sample table *)

Definition one_case (c : Crime) (n : Z) : Crime -> Z :=
  fun c' => match c, c' with
            | Theft, Theft | Murder, Murder | Robbery, Robbery
            | Dacoity, Dacoity => n
            | _, _ => 0
            end.

Definition sample_df : DataFrame :=
  [ mkRow "January" "DMP" (one_case Theft 5) 5 (mkTimestamp 2021 1);
    mkRow "January" "CMP" (one_case Murder 2) 2 (mkTimestamp 2021 1);
    mkRow "March" "DMP" (one_case Robbery 7) 7 (mkTimestamp 2022 3);
    mkRow "January" "DMP" (one_case Theft 4) 4 (mkTimestamp 2022 1);
    mkRow "March" "RMP" (one_case Dacoity 1) 1 (mkTimestamp 2023 3) ].

(** ** Properties of the selection *)

Lemma isin_In (u : string) (values : list string) :
  isin u values = true <-> In u values.
Proof.
  unfold isin. rewrite existsb_exists. split.
  - intros [v [Hin Heq]]. apply String.eqb_eq in Heq. now subst.
  - intros Hin. exists u. split; [assumption | apply String.eqb_refl].
Qed.

Lemma row_mask_spec (units : list string) (lo hi : Z) (r : Row) :
  row_mask units (lo, hi) r = true <->
  In (Unit r) units /\ lo <= Year r <= hi.
Proof.
  unfold row_mask. cbn [fst snd].
  rewrite !andb_true_iff, isin_In, Z.geb_le, Z.leb_le. tauto.
Qed.

(** C1: a row is in the filter result iff it is a row of the dataset whose
    unit is one of the selected units and whose year lies in the inclusive
    range; an empty unit selection and an inverted year range both give the
    empty view. *)
Theorem filtered_df_membership (df : DataFrame) (units : list string)
    (year_lo year_hi : Z) :
  (forall r, In r (filtered_df df units (year_lo, year_hi)) <->
             In r df /\ In (Unit r) units /\ year_lo <= Year r <= year_hi)
  /\ filtered_df df [] (year_lo, year_hi) = []
  /\ (year_lo > year_hi -> filtered_df df units (year_lo, year_hi) = []).
Proof.
  unfold filtered_df. split; [|split].
  - intros r. rewrite filter_In, row_mask_spec. tauto.
  - induction df as [|r df IH]; [reflexivity|].
    cbn [filter]. unfold row_mask at 1. cbn [isin existsb andb]. exact IH.
  - intros Hinv. induction df as [|r df IH]; [reflexivity|].
    cbn [filter]. destruct (row_mask units (year_lo, year_hi) r) eqn:E.
    + apply row_mask_spec in E. lia.
    + exact IH.
Qed.

Lemma filtered_df_membership_witness :
  filtered_df sample_df ["DMP"; "CMP"] (2023, 2021) = [].
Proof.
  apply (proj2 (proj2 (filtered_df_membership sample_df ["DMP"; "CMP"] 2023 2021))).
  lia.
Defined.

(** ** Key orders *)

#[export] Instance Z_KeyOrderLaws : KeyOrderLaws Z.
Proof.
  split; unfold key_compare, Z_KeyOrder.
  - intros a b. apply Z.compare_eq_iff.
  - intros a b. apply Z.compare_antisym.
  - intros a b c. rewrite !Z.compare_lt_iff. lia.
Qed.

Lemma ascii_compare_refl (a : ascii) : Ascii.compare a a = Eq.
Proof. unfold Ascii.compare. apply N.compare_refl. Qed.

Lemma ascii_compare_trans (a b c : ascii) :
  Ascii.compare a b = Lt -> Ascii.compare b c = Lt -> Ascii.compare a c = Lt.
Proof. unfold Ascii.compare. rewrite !N.compare_lt_iff. lia. Qed.

Lemma string_compare_refl (s : string) : String.compare s s = Eq.
Proof.
  induction s as [|a s IH]; [reflexivity|].
  cbn. now rewrite ascii_compare_refl.
Qed.

Lemma string_compare_trans (s t u : string) :
  String.compare s t = Lt -> String.compare t u = Lt ->
  String.compare s u = Lt.
Proof.
  revert t u. induction s as [|a s IH]; intros [|b t] [|c u]; cbn;
    try congruence.
  destruct (Ascii.compare a b) eqn:Eab; try discriminate;
    destruct (Ascii.compare b c) eqn:Ebc; try discriminate; intros Hst Htu.
  - apply Ascii.compare_eq_iff in Eab, Ebc. subst.
    rewrite ascii_compare_refl. eauto.
  - apply Ascii.compare_eq_iff in Eab. subst. now rewrite Ebc.
  - apply Ascii.compare_eq_iff in Ebc. subst. now rewrite Eab.
  - now rewrite (ascii_compare_trans _ _ _ Eab Ebc).
Qed.

#[export] Instance string_KeyOrderLaws : KeyOrderLaws string.
Proof.
  split; unfold key_compare, string_KeyOrder.
  - intros a b. split.
    + apply String.compare_eq_iff.
    + intros ->. apply string_compare_refl.
  - intros a b. apply String.compare_antisym.
  - apply string_compare_trans.
Qed.

#[export] Instance pair_KeyOrderLaws {A B : Type}
    `{KeyOrderLaws A} `{KeyOrderLaws B} : KeyOrderLaws (A * B).
Proof.
  split; unfold key_compare, pair_KeyOrder.
  - intros [a1 b1] [a2 b2]. cbn [fst snd].
    destruct (key_compare a1 a2) eqn:Ea.
    + apply key_compare_eq in Ea. subst. rewrite key_compare_eq.
      split; [now intros -> | congruence].
    + split; [discriminate|]. intros Heq. inversion Heq; subst.
      assert (key_compare a2 a2 = Eq) by now apply key_compare_eq.
      congruence.
    + split; [discriminate|]. intros Heq. inversion Heq; subst.
      assert (key_compare a2 a2 = Eq) by now apply key_compare_eq.
      congruence.
  - intros [a1 b1] [a2 b2]. cbn [fst snd].
    rewrite (key_compare_antisym a1 a2).
    destruct (key_compare a1 a2); cbn; try reflexivity.
    apply key_compare_antisym.
  - intros [a1 b1] [a2 b2] [a3 b3]. cbn [fst snd].
    destruct (key_compare a1 a2) eqn:E12; try discriminate;
      destruct (key_compare a2 a3) eqn:E23; try discriminate; intros H12 H23.
    + apply key_compare_eq in E12, E23. subst.
      assert (E : key_compare a3 a3 = Eq) by now apply key_compare_eq.
      rewrite E. eapply key_compare_trans; eassumption.
    + apply key_compare_eq in E12. subst. now rewrite E23.
    + apply key_compare_eq in E23. subst. now rewrite E12.
    + now rewrite (key_compare_trans _ _ _ E12 E23).
Qed.

#[export] Instance Timestamp_KeyOrderLaws : KeyOrderLaws Timestamp.
Proof.
  split; unfold key_compare, Timestamp_KeyOrder.
  - intros [y1 m1] [y2 m2]. cbn [ts_year ts_month].
    destruct (Z.compare y1 y2) eqn:Ey.
    + apply Z.compare_eq_iff in Ey. subst. rewrite Z.compare_eq_iff.
      split; [now intros -> | congruence].
    + split; [discriminate|]. intros Heq. inversion Heq; subst.
      rewrite Z.compare_refl in Ey. discriminate.
    + split; [discriminate|]. intros Heq. inversion Heq; subst.
      rewrite Z.compare_refl in Ey. discriminate.
  - intros [y1 m1] [y2 m2]. cbn [ts_year ts_month].
    rewrite (Z.compare_antisym y1 y2).
    destruct (Z.compare y1 y2); cbn; try reflexivity.
    apply Z.compare_antisym.
  - intros [y1 m1] [y2 m2] [y3 m3]. cbn [ts_year ts_month].
    destruct (Z.compare_spec y1 y2); try discriminate;
      destruct (Z.compare_spec y2 y3); try discriminate; intros H12 H23;
      subst.
    + rewrite Z.compare_refl. rewrite Z.compare_lt_iff in *. lia.
    + destruct (Z.compare_spec y2 y3); try lia. reflexivity.
    + destruct (Z.compare_spec y1 y3); try lia. reflexivity.
    + destruct (Z.compare_spec y1 y3); try lia. reflexivity.
Qed.

(** ** Group-by *)

Section GroupByFacts.
Context {K : Type} `{KeyOrderLaws K}.

Lemma key_compare_refl (k : K) : key_compare k k = Eq.
Proof. now apply key_compare_eq. Qed.

Lemma key_compare_gt (a b : K) :
  key_compare a b = Gt -> key_compare b a = Lt.
Proof. intros E. rewrite (key_compare_antisym a b), E. reflexivity. Qed.

Lemma is_key_true (k k' : K) : is_key k k' = true <-> k' = k.
Proof.
  unfold is_key. rewrite <- key_compare_eq.
  destruct (key_compare k' k); split; congruence.
Qed.

Lemma is_key_refl (k : K) : is_key k k = true.
Proof. now apply is_key_true. Qed.

Lemma is_key_false (k k' : K) : k' <> k -> is_key k k' = false.
Proof.
  intros Hne. destruct (is_key k k') eqn:E; [|reflexivity].
  apply is_key_true in E. contradiction.
Qed.

Lemma ascending_NoDup (ks : list K) : ascending ks -> NoDup ks.
Proof.
  induction 1 as [|k ks Hs IH Hall]; constructor; [|assumption].
  intros Hin. rewrite Forall_forall in Hall. specialize (Hall k Hin).
  rewrite key_compare_refl in Hall. discriminate.
Qed.

Lemma get_group_below (k : K) (gs : list (K * list Row)) :
  Forall (fun k' => key_compare k k' = Lt) (map fst gs) ->
  get_group k gs = [].
Proof.
  induction gs as [|[k0 rs] gs IH]; cbn [map fst get_group snd];
    [reflexivity|].
  intros Hall. inversion Hall as [|? ? Hlt Hall']; subst.
  rewrite is_key_false; [now apply IH|].
  intros ->. rewrite key_compare_refl in Hlt. discriminate.
Qed.

Lemma add_to_group_labels (k : K) (r : Row) (gs : list (K * list Row))
    (x : K) :
  In x (map fst (add_to_group k r gs)) <-> x = k \/ In x (map fst gs).
Proof.
  induction gs as [|[k0 rs] gs IH]; cbn [add_to_group map fst In].
  - intuition congruence.
  - destruct (key_compare k k0) eqn:E; cbn [map fst In].
    + apply key_compare_eq in E. subst. intuition congruence.
    + intuition congruence.
    + rewrite IH. intuition congruence.
Qed.

Lemma add_to_group_ascending (k : K) (r : Row) (gs : list (K * list Row)) :
  ascending (map fst gs) -> ascending (map fst (add_to_group k r gs)).
Proof.
  unfold ascending.
  induction gs as [|[k0 rs] gs IH]; cbn [add_to_group map fst]; intros Hs.
  - constructor; constructor.
  - apply StronglySorted_inv in Hs. destruct Hs as [Hs Hall].
    destruct (key_compare k k0) eqn:E; cbn [map fst].
    + now constructor.
    + constructor; [now constructor|].
      constructor; [assumption|].
      eapply Forall_impl; [|exact Hall]. cbn.
      intros a Ha. eapply key_compare_trans; eassumption.
    + constructor; [now apply IH|].
      apply Forall_forall. intros x Hx.
      apply add_to_group_labels in Hx. destruct Hx as [->|Hx].
      * now apply key_compare_gt.
      * rewrite Forall_forall in Hall. now apply Hall.
Qed.

Lemma get_group_add (k k' : K) (r : Row) (gs : list (K * list Row)) :
  ascending (map fst gs) ->
  get_group k' (add_to_group k r gs) =
  if is_key k' k then get_group k' gs ++ [r] else get_group k' gs.
Proof.
  unfold ascending.
  induction gs as [|[k0 rs] gs IH]; cbn [add_to_group map fst]; intros Hs.
  - cbn [get_group fst snd]. now destruct (is_key k' k).
  - apply StronglySorted_inv in Hs. destruct Hs as [Hs Hall].
    destruct (key_compare k k0) eqn:E.
    + apply key_compare_eq in E. subst k0. cbn [get_group fst snd].
      now destruct (is_key k' k).
    + cbn [get_group fst snd]. destruct (is_key k' k) eqn:Ek;
        [|reflexivity].
      apply is_key_true in Ek. subst k'.
      rewrite is_key_false.
      * rewrite get_group_below; [reflexivity|].
        eapply Forall_impl; [|exact Hall]. cbn.
        intros a Ha. eapply key_compare_trans; eassumption.
      * intros ->. rewrite key_compare_refl in E. discriminate.
    + cbn [get_group fst snd]. rewrite (IH Hs).
      destruct (is_key k' k0) eqn:E0; [|reflexivity].
      apply is_key_true in E0. subst k0.
      rewrite is_key_false; [reflexivity|].
      intros ->. rewrite key_compare_refl in E. discriminate.
Qed.

Lemma get_group_member (k : K) (rs : list Row) (gs : list (K * list Row)) :
  ascending (map fst gs) -> In (k, rs) gs -> get_group k gs = rs.
Proof.
  unfold ascending.
  induction gs as [|[k0 rs0] gs IH]; cbn [map fst]; intros Hs Hin;
    [contradiction|].
  apply StronglySorted_inv in Hs. destruct Hs as [Hs Hall].
  cbn [get_group fst snd]. destruct Hin as [Heq|Hin].
  - inversion Heq; subst. now rewrite is_key_refl.
  - rewrite is_key_false; [now apply IH|].
    intros ->. rewrite Forall_forall in Hall.
    assert (Hlt : key_compare k k = Lt).
    { apply Hall. apply (in_map fst) in Hin. exact Hin. }
    rewrite key_compare_refl in Hlt. discriminate.
Qed.

Variable key : Row -> K.

Lemma groupby_snoc (d : DataFrame) (r : Row) :
  groupby key (d ++ [r]) = add_to_group (key r) r (groupby key d).
Proof. unfold groupby. now rewrite fold_left_app. Qed.

Lemma groupby_ascending (d : DataFrame) :
  ascending (map fst (groupby key d)).
Proof.
  induction d as [|r d IH] using rev_ind.
  - constructor.
  - rewrite groupby_snoc. now apply add_to_group_ascending.
Qed.

Lemma groupby_labels (d : DataFrame) (k : K) :
  In k (map fst (groupby key d)) <-> exists r, In r d /\ key r = k.
Proof.
  induction d as [|r d IH] using rev_ind.
  - cbn. split; [contradiction | intros [r [[] _]]].
  - rewrite groupby_snoc, add_to_group_labels, IH. split.
    + intros [->|[r' [Hin Hk]]].
      * exists r. split; [apply in_or_app; right; now left | reflexivity].
      * exists r'. split; [apply in_or_app; now left | assumption].
    + intros [r' [Hin Hk]]. apply in_app_or in Hin.
      destruct Hin as [Hin|[->|[]]]; [right; eauto | left; congruence].
Qed.

Lemma get_group_groupby (d : DataFrame) (k : K) :
  get_group k (groupby key d) = filter (fun r => is_key k (key r)) d.
Proof.
  induction d as [|r d IH] using rev_ind; [reflexivity|].
  rewrite groupby_snoc, get_group_add by apply groupby_ascending.
  rewrite filter_app, IH. cbn [filter].
  destruct (is_key k (key r)); [reflexivity | now rewrite app_nil_r].
Qed.

(** The rows of a group are the rows of the frame with that key, in frame
    order. *)
Lemma groupby_group (d : DataFrame) (k : K) (rs : list Row) :
  In (k, rs) (groupby key d) ->
  rs = filter (fun r => is_key k (key r)) d.
Proof.
  intros Hin. rewrite <- get_group_groupby. symmetry.
  apply get_group_member; [apply groupby_ascending | assumption].
Qed.

Lemma groupby_nonempty (d : DataFrame) (k : K) (rs : list Row) :
  In (k, rs) (groupby key d) -> rs <> [].
Proof.
  intros Hin Hnil. pose proof (groupby_group d k rs Hin) as Hrs.
  assert (Hk : In k (map fst (groupby key d))).
  { apply (in_map fst) in Hin. exact Hin. }
  apply groupby_labels in Hk. destruct Hk as [r [Hr Hkey]].
  assert (Hf : In r (filter (fun r => is_key k (key r)) d)).
  { apply filter_In. split; [assumption | now apply is_key_true]. }
  rewrite <- Hrs, Hnil in Hf. contradiction.
Qed.
End GroupByFacts.

Lemma rows_with_In {K : Type} `{KeyOrderLaws K} (key : Row -> K) (k : K)
    (d : DataFrame) (r : Row) :
  In r (rows_with key k d) <-> In r d /\ key r = k.
Proof. unfold rows_with. now rewrite filter_In, is_key_true. Qed.

Lemma Timestamp_compare_earlier (a b : Timestamp) :
  key_compare a b = Lt <-> earlier a b.
Proof.
  unfold key_compare, Timestamp_KeyOrder, earlier.
  destruct (Z.compare_spec (ts_year a) (ts_year b)).
  - rewrite Z.compare_lt_iff. lia.
  - intuition lia.
  - split; [discriminate | lia].
Qed.

Lemma StronglySorted_impl {A : Type} (R S : A -> A -> Prop) (l : list A) :
  (forall a b, R a b -> S a b) -> StronglySorted R l -> StronglySorted S l.
Proof.
  intros HRS. induction 1 as [|a l Hs IH Hall]; constructor;
    [assumption|].
  eapply Forall_impl; [|exact Hall]. apply HRS.
Qed.

Lemma agg_sum_labels {K : Type} (col : Row -> Z) (gs : list (K * list Row)) :
  map fst (agg_sum col gs) = map fst gs.
Proof. unfold agg_sum. rewrite map_map. reflexivity. Qed.

Lemma agg_sum_In {K : Type} (col : Row -> Z) (gs : list (K * list Row))
    (k : K) (t : Z) :
  In (k, t) (agg_sum col gs) <->
  exists rs, In (k, rs) gs /\ t = col_sum col rs.
Proof.
  unfold agg_sum. rewrite in_map_iff. split.
  - intros [[k' rs] [Heq Hin]]. cbn in Heq. inversion Heq; subst. eauto.
  - intros [rs [Hin ->]]. exists (k, rs). split; [reflexivity | assumption].
Qed.

(** ** Monthly trend *)

(** C7: the monthly series has one entry per distinct date present in the
    view, in chronological order, and the entry of a date carries the sum
    of [Total_Cases] over the rows of that date. *)
Theorem monthly_data_series (view : DataFrame) :
  StronglySorted earlier (map fst (monthly_data view))
  /\ (forall d, In d (map fst (monthly_data view)) <->
                exists r, In r view /\ Date r = d)
  /\ (forall d t, In (d, t) (monthly_data view) ->
                  t = series_sum (map Total_Cases (rows_with Date d view))).
Proof.
  unfold monthly_data. rewrite agg_sum_labels. split; [|split].
  - eapply StronglySorted_impl; [|apply (groupby_ascending Date view)].
    intros a b. apply Timestamp_compare_earlier.
  - intros d. apply groupby_labels.
  - intros d t Hin. apply agg_sum_In in Hin. destruct Hin as [rs [Hin ->]].
    apply groupby_group in Hin. subst rs. reflexivity.
Qed.

(** ** Unit ranking *)

Lemma insert_desc_In {L : Type} (x y : L * Z) (s : list (L * Z)) :
  In y (insert_desc x s) <-> y = x \/ In y s.
Proof.
  induction s as [|z s IH]; cbn [insert_desc In].
  - intuition congruence.
  - destruct (snd x <? snd z); cbn [In]; [rewrite IH|]; intuition congruence.
Qed.

Lemma insert_desc_sorted {L : Type} (x : L * Z) (s : list (L * Z)) :
  StronglySorted at_least s -> StronglySorted at_least (insert_desc x s).
Proof.
  induction s as [|z s IH]; cbn [insert_desc]; intros Hs.
  - constructor; constructor.
  - pose proof Hs as Hs0.
    apply StronglySorted_inv in Hs. destruct Hs as [Hs Hall].
    destruct (snd x <? snd z) eqn:E.
    + apply Z.ltb_lt in E. constructor; [now apply IH|].
      apply Forall_forall. intros y Hy. apply insert_desc_In in Hy.
      destruct Hy as [->|Hy]; [unfold at_least; lia|].
      rewrite Forall_forall in Hall. now apply Hall.
    + apply Z.ltb_ge in E. constructor; [assumption|].
      constructor; [exact E|].
      eapply Forall_impl; [|exact Hall]. unfold at_least. intros; lia.
Qed.

Lemma sort_values_desc_sorted {L : Type} (s : list (L * Z)) :
  StronglySorted at_least (sort_values_desc s).
Proof.
  induction s as [|x s IH]; cbn; [constructor|].
  now apply insert_desc_sorted.
Qed.

Lemma sort_values_desc_In {L : Type} (s : list (L * Z)) (y : L * Z) :
  In y (sort_values_desc s) <-> In y s.
Proof.
  induction s as [|x s IH]; cbn; [reflexivity|].
  rewrite insert_desc_In, IH. intuition congruence.
Qed.

Lemma firstn_In {A : Type} (n : nat) (l : list A) (x : A) :
  In x (firstn n l) -> In x l.
Proof.
  revert l. induction n as [|n IH]; intros [|a l]; cbn; try tauto.
  intros [->|Hin]; [now left | right; now apply IH].
Qed.

Lemma firstn_sorted {A : Type} (R : A -> A -> Prop) (n : nat) (l : list A) :
  StronglySorted R l -> StronglySorted R (firstn n l).
Proof.
  revert l. induction n as [|n IH]; intros [|a l] Hs; cbn;
    try constructor.
  - apply IH. now apply StronglySorted_inv in Hs.
  - apply StronglySorted_inv in Hs. destruct Hs as [_ Hall].
    apply Forall_forall. intros x Hx. apply firstn_In in Hx.
    rewrite Forall_forall in Hall. now apply Hall.
Qed.

(** C6: the unit ranking is in descending order of total, has at most ten
    entries, and each entry pairs a unit of the view with the sum of
    [Total_Cases] over that unit's rows. *)
Theorem unit_totals_ranking (view : DataFrame) :
  StronglySorted (fun a b => snd a >= snd b) (unit_totals view)
  /\ (List.length (unit_totals view) <= 10)%nat
  /\ (forall u t, In (u, t) (unit_totals view) ->
                  (exists r, In r view /\ Unit r = u)
                  /\ t = series_sum (map Total_Cases (rows_with Unit u view))).
Proof.
  unfold unit_totals. split; [|split].
  - eapply StronglySorted_impl;
      [|apply firstn_sorted, sort_values_desc_sorted].
    unfold at_least. intros a b Hab. lia.
  - apply firstn_le_length.
  - intros u t Hin. apply firstn_In in Hin.
    apply sort_values_desc_In in Hin as Hin'.
    apply (proj1 (sort_values_desc_In _ _)) in Hin. clear Hin'.
    apply agg_sum_In in Hin. destruct Hin as [rs [Hin ->]]. split.
    + apply (groupby_labels Unit view u).
      apply (in_map fst) in Hin. exact Hin.
    + apply groupby_group in Hin. subst rs. reflexivity.
Qed.

(** ** Seasonal pattern *)

Lemma agg_mean_labels {K : Type} (col : Row -> Z)
    (gs : list (K * list Row)) :
  map fst (agg_mean col gs) = map fst gs.
Proof. unfold agg_mean. rewrite map_map. reflexivity. Qed.

Lemma agg_mean_In {K : Type} (col : Row -> Z) (gs : list (K * list Row))
    (k : K) (a : option Q) :
  In (k, a) (agg_mean col gs) <->
  exists rs, In (k, rs) gs /\ a = series_mean (map col rs).
Proof.
  unfold agg_mean. rewrite in_map_iff. split.
  - intros [[k' rs] [Heq Hin]]. cbn in Heq. inversion Heq; subst. eauto.
  - intros [rs [Hin ->]]. exists (k, rs). split; [reflexivity | assumption].
Qed.

(** A strictly increasing list of integers drawn from [lo..hi] has at most
    [hi - lo + 1] entries, and holds the whole range when it has that
    many. *)
Lemma increasing_in_range (l : list Z) :
  forall lo hi : Z,
    lo <= hi + 1 ->
    StronglySorted Z.lt l ->
    Forall (fun x => lo <= x <= hi) l ->
    Z.of_nat (List.length l) <= hi - lo + 1
    /\ (Z.of_nat (List.length l) = hi - lo + 1 ->
        forall m, lo <= m <= hi -> In m l).
Proof.
  induction l as [|x l IH]; intros lo hi Hlh Hs Hall.
  - cbn. split; [lia|]. intros Heq m Hm. lia.
  - apply StronglySorted_inv in Hs. destruct Hs as [Hs Hgt].
    inversion Hall as [|? ? Hx Hall']; subst.
    assert (Hall1 : Forall (fun y => x + 1 <= y <= hi) l).
    { rewrite Forall_forall in *. intros y Hy.
      specialize (Hgt y Hy). specialize (Hall' y Hy). lia. }
    destruct (IH (x + 1) hi ltac:(lia) Hs Hall1) as [Hlen Hfull].
    cbn [List.length]. split; [lia|].
    intros Heq m Hm.
    destruct (Z.eq_dec m x) as [->|Hne]; [now left|].
    right. apply Hfull; lia.
Qed.

Lemma month_numbers_In (m : Z) : In m month_numbers <-> 1 <= m <= 12.
Proof. unfold month_numbers. cbn [In]. lia. Qed.

Lemma month_numbers_NoDup : NoDup month_numbers.
Proof.
  unfold month_numbers.
  repeat (constructor; [cbn [In]; lia|]). constructor.
Qed.

(** C4, as the code has it: the seasonal averages have one entry per
    month number present in the view, in ascending month order, each the
    mean of [Total_Cases] over the rows of that month.  With month numbers
    in 1..12 that is at most twelve entries, and twelve exactly when every
    month occurs in the view. *)
Theorem monthly_avg_by_month (view : DataFrame) :
  StronglySorted Z.lt (map fst (monthly_avg view))
  /\ (forall m, In m (map fst (monthly_avg view)) <->
                exists r, In r view /\ Month_Num r = m)
  /\ (forall m a, In (m, a) (monthly_avg view) ->
        a = series_mean (map Total_Cases (rows_with Month_Num m view)))
  /\ ((forall r, In r view -> 1 <= Month_Num r <= 12) ->
      (List.length (monthly_avg view) <= 12)%nat
      /\ (List.length (monthly_avg view) = 12%nat <->
          forall m, 1 <= m <= 12 -> exists r, In r view /\ Month_Num r = m)).
Proof.
  assert (Hsorted : StronglySorted Z.lt (map fst (monthly_avg view))).
  { unfold monthly_avg. rewrite agg_mean_labels.
    eapply StronglySorted_impl; [|apply (groupby_ascending Month_Num view)].
    intros a b. unfold key_compare, Z_KeyOrder. apply Z.compare_lt_iff. }
  assert (Hlabels : forall m, In m (map fst (monthly_avg view)) <->
                              exists r, In r view /\ Month_Num r = m).
  { intros m. unfold monthly_avg. rewrite agg_mean_labels.
    apply groupby_labels. }
  split; [exact Hsorted|]. split; [exact Hlabels|]. split.
  - intros m a Hin. unfold monthly_avg in Hin. apply agg_mean_In in Hin.
    destruct Hin as [rs [Hin ->]]. apply groupby_group in Hin.
    subst rs. reflexivity.
  - intros Hvalid.
    assert (Hall : Forall (fun x => 1 <= x <= 12)
                          (map fst (monthly_avg view))).
    { apply Forall_forall. intros m Hm. apply Hlabels in Hm.
      destruct Hm as [r [Hr <-]]. now apply Hvalid. }
    destruct (increasing_in_range _ 1 12 ltac:(lia) Hsorted Hall)
      as [Hlen Hfull].
    rewrite length_map in Hlen, Hfull. split; [lia|]. split.
    + intros Heq m Hm. apply Hlabels. apply Hfull; lia.
    + intros Hevery.
      assert (Hincl : incl month_numbers (map fst (monthly_avg view))).
      { intros m Hm. apply Hlabels, Hevery. now apply month_numbers_In. }
      pose proof (NoDup_incl_length month_numbers_NoDup Hincl) as Hge.
      rewrite length_map in Hge. cbn in Hge. lia.
Qed.

Lemma monthly_avg_by_month_witness :
  (List.length (monthly_avg sample_df) <= 12)%nat.
Proof.
  apply (proj2 (proj2 (proj2 (monthly_avg_by_month sample_df)))).
  intros r Hin. unfold sample_df in Hin. cbn [In] in Hin.
  repeat (destruct Hin as [<-|Hin]; [cbn; lia|]). contradiction.
Defined.

(** Against C4 as worded: a view with rows in January and March only has
    two seasonal averages, not twelve. *)
Lemma monthly_avg_not_twelve :
  List.length (monthly_avg (filtered_df sample_df ["DMP"; "CMP"] (2021, 2024)))
  <> 12%nat.
Proof. vm_compute. discriminate. Qed.

(** ** Sums *)

Lemma fold_left_add_shift (l : list Z) (a : Z) :
  fold_left Z.add l a = a + fold_left Z.add l 0.
Proof.
  revert a. induction l as [|x l IH]; intros a; cbn [fold_left].
  - lia.
  - rewrite (IH (a + x)), (IH (0 + x)). lia.
Qed.

Lemma series_sum_cons (x : Z) (l : list Z) :
  series_sum (x :: l) = x + series_sum l.
Proof.
  unfold series_sum. cbn [fold_left]. rewrite fold_left_add_shift. lia.
Qed.

Lemma series_sum_Permutation (l l' : list Z) :
  Permutation l l' -> series_sum l = series_sum l'.
Proof.
  induction 1; rewrite ?series_sum_cons; lia.
Qed.

(** ** Monthly mean *)

Lemma is_key_year_month (p : Z * string) (r : Row) :
  is_key p (year_month r) =
  if year_month_eq_dec (year_month r) p then true else false.
Proof.
  destruct (year_month_eq_dec (year_month r) p) as [Heq|Hne].
  - now apply is_key_true.
  - now apply is_key_false.
Qed.

Lemma monthly_totals_labels (view : DataFrame) :
  Permutation (map fst (monthly_totals view)) (year_months view).
Proof.
  unfold monthly_totals, year_months. rewrite agg_sum_labels.
  apply NoDup_Permutation.
  - apply ascending_NoDup, groupby_ascending.
  - apply NoDup_nodup.
  - intros p. rewrite nodup_In, groupby_labels, in_map_iff.
    split; intros [r [H1 H2]]; exists r; tauto.
Qed.

Lemma monthly_totals_values (view : DataFrame) :
  map snd (monthly_totals view) =
  map (month_total view) (map fst (monthly_totals view)).
Proof.
  rewrite map_map. apply map_ext_in. intros [p t] Hin. cbn [fst snd].
  unfold monthly_totals in Hin. apply agg_sum_In in Hin.
  destruct Hin as [rs [Hin ->]]. apply groupby_group in Hin. subst rs.
  unfold month_total, col_sum. do 2 f_equal.
  apply filter_ext. intros r. apply is_key_year_month.
Qed.

Lemma monthly_totals_nonempty (view : DataFrame) :
  view <> [] -> monthly_totals view <> [].
Proof.
  destruct view as [|r view]; [congruence|]. intros _ Hnil.
  assert (Hin : In (year_month r) (map fst (monthly_totals (r :: view)))).
  { unfold monthly_totals. rewrite agg_sum_labels. apply groupby_labels.
    exists r. split; [now left | reflexivity]. }
  rewrite Hnil in Hin. contradiction.
Qed.

(** C5: on a non-empty view the card's monthly average is the arithmetic
    mean, over the distinct (year, month) pairs of the view, of the sum of
    [Total_Cases] within each pair's group. *)
Theorem avg_monthly_is_mean (view : DataFrame) :
  view <> [] -> avg_monthly view = Some (mean_of_month_totals view).
Proof.
  intros Hne. unfold avg_monthly, series_mean, mean_of_month_totals.
  pose proof (monthly_totals_nonempty view Hne) as Hne'.
  pose proof (monthly_totals_labels view) as Hperm.
  destruct (map snd (monthly_totals view)) as [|t ts] eqn:Hvals.
  - destruct (monthly_totals view); [congruence | discriminate].
  - rewrite <- Hvals. f_equal. f_equal.
    + rewrite monthly_totals_values.
      apply series_sum_Permutation, Permutation_map, Hperm.
    + rewrite length_map, <- (length_map fst).
      f_equal. now apply Permutation_length.
Qed.

Lemma avg_monthly_is_mean_witness :
  avg_monthly sample_df = Some (mean_of_month_totals sample_df).
Proof. apply avg_monthly_is_mean. discriminate. Defined.

(** ** Peak crime *)

(** [idxmax_from] returns the first label that carries the maximum: the
    labels before it are strictly smaller, the labels after it are no
    larger. *)
Lemma idxmax_from_split {L : Type} (f : L -> Z) (cs : list L) :
  forall b : L,
    exists pre post,
      b :: cs = pre ++ idxmax_from (b, f b) (map (fun c => (c, f c)) cs)
                  :: post
      /\ (forall c, In c pre ->
            f c < f (idxmax_from (b, f b) (map (fun c => (c, f c)) cs)))
      /\ (forall c, In c post ->
            f c <= f (idxmax_from (b, f b) (map (fun c => (c, f c)) cs))).
Proof.
  induction cs as [|c cs IH]; intros b; cbn [map idxmax_from fst snd].
  - exists [], []. repeat split; intros ? [].
  - destruct (f c >? f b) eqn:E.
    + apply Z.gtb_lt in E.
      destruct (IH c) as [pre [post [Hsplit [Hpre Hpost]]]].
      revert Hsplit Hpre Hpost.
      generalize (idxmax_from (c, f c) (map (fun c => (c, f c)) cs)).
      intros m Hsplit Hpre Hpost.
      exists (b :: pre), post. split; [cbn; now rewrite Hsplit|].
      split; [|assumption].
      intros x [<-|Hx]; [|now apply Hpre].
      destruct pre as [|p pre]; cbn in Hsplit;
        injection Hsplit as Hhead Htail.
      * now rewrite <- Hhead.
      * assert (f p < f m) by (apply Hpre; now left).
        rewrite Hhead in E. lia.
    + assert (Hle : f c <= f b).
      { destruct (Z.gtb_spec (f c) (f b)); [discriminate | lia]. }
      destruct (IH b) as [pre [post [Hsplit [Hpre Hpost]]]].
      revert Hsplit Hpre Hpost.
      generalize (idxmax_from (b, f b) (map (fun c => (c, f c)) cs)).
      intros m Hsplit Hpre Hpost.
      destruct pre as [|p pre]; cbn in Hsplit;
        injection Hsplit as Hhead Htail.
      * exists [], (c :: post). split; [cbn; congruence|].
        split; [intros ? []|].
        intros x [<-|Hx]; [|now apply Hpost].
        now rewrite <- Hhead.
      * exists (p :: c :: pre), post.
        split; [cbn; congruence|].
        split; [|assumption].
        assert (Hp : f p < f m) by (apply Hpre; now left).
        intros x [<-|[<-|Hx]]; [assumption | rewrite Hhead in Hle; lia |].
        apply Hpre. now right.
Qed.

Lemma crime_columns_complete (c : Crime) : In c crime_columns.
Proof. destruct c; cbn; tauto. Qed.

(** C2, as the code has it: the card's peak crime is taken over the whole
    canonical column list, whatever the crime dropdown holds.  It is a
    canonical column whose sum over the view is no smaller than any other
    column's, and among equal sums it is the one listed first. *)
Theorem peak_crime_canonical (view : DataFrame) :
  exists c before after,
    peak_crime view = Some c
    /\ In c crime_columns
    /\ (forall c', col_sum (crime_col c') view <= col_sum (crime_col c) view)
    /\ crime_columns = before ++ c :: after
    /\ (forall c', In c' before ->
          col_sum (crime_col c') view < col_sum (crime_col c) view).
Proof.
  unfold peak_crime, cols_sum.
  set (f := fun c => col_sum (crime_col c) view).
  change (map (fun c => (c, col_sum (crime_col c) view)) crime_columns)
    with (map (fun c => (c, f c)) crime_columns).
  unfold crime_columns at 1. cbn [map idxmax].
  destruct (idxmax_from_split f (List.tl crime_columns) Dacoity)
    as [pre [post [Hsplit [Hpre Hpost]]]].
  cbn [List.tl crime_columns] in Hsplit, Hpre, Hpost.
  set (m := idxmax_from (Dacoity, f Dacoity) _) in *.
  exists m, pre, post. split; [reflexivity|].
  split; [apply crime_columns_complete|]. split; [|split].
  - intros c'. fold (f c') (f m).
    pose proof (crime_columns_complete c') as Hin.
    unfold crime_columns in Hin. rewrite Hsplit in Hin.
    apply in_app_or in Hin. destruct Hin as [Hin|[->|Hin]].
    + specialize (Hpre c' Hin). lia.
    + lia.
    + now apply Hpost.
  - exact Hsplit.
  - intros c' Hin. now apply Hpre.
Qed.

(** Against C2 as worded: with only [Murder] supplied, the peak of a
    non-empty view whose cases are all thefts is [Theft]. *)
Lemma peak_crime_outside_selection :
  filtered_df sample_df ["DMP"] (2021, 2021) <> []
  /\ [Murder] <> []
  /\ peak_crime (filtered_df sample_df ["DMP"] (2021, 2021)) = Some Theft
  /\ ~ In Theft [Murder].
Proof.
  split; [vm_compute; discriminate|]. split; [discriminate|].
  split; [vm_compute; reflexivity|].
  intros [H|[]]. discriminate.
Qed.

(** ** Empty views *)

Lemma summary_of_empty_view (df : DataFrame) (units : list string)
    (year_range : Z * Z) :
  filtered_df df units year_range = [] ->
  update_summary_cards df units year_range =
  Some ("0", "nan", "Dacoity", "0").
Proof.
  intros Hempty. unfold update_summary_cards. rewrite Hempty.
  vm_compute. reflexivity.
Qed.

Lemma filtered_df_no_units (df : DataFrame) (year_range : Z * Z) :
  filtered_df df [] year_range = [].
Proof.
  unfold filtered_df. induction df as [|r df IH]; [reflexivity|].
  cbn [filter]. unfold row_mask at 1. cbn [isin existsb andb]. exact IH.
Qed.

(** C3, as the code has it: on an empty view the cards show total "0",
    units "0" and the first canonical column "Dacoity" as peak, while the
    monthly mean is the NaN of an empty mean and is printed as "nan". *)
Theorem empty_view_cards (df : DataFrame) (units : list string)
    (year_range : Z * Z) :
  filtered_df df units year_range = [] ->
  avg_monthly (filtered_df df units year_range) = None
  /\ update_summary_cards df units year_range =
     Some ("0", "nan", "Dacoity", "0").
Proof.
  intros Hempty. split.
  - rewrite Hempty. reflexivity.
  - now apply summary_of_empty_view.
Qed.

Lemma empty_view_cards_witness :
  update_summary_cards sample_df ["DMP"] (2025, 2025) =
  Some ("0", "nan", "Dacoity", "0").
Proof.
  apply (proj2 (empty_view_cards sample_df ["DMP"] (2025, 2025) eq_refl)).
Defined.

(** Against C3 as worded: with no unit selected the view is empty and the
    monthly-average card reads "nan". *)
Lemma empty_view_avg_is_nan :
  filtered_df sample_df [] (2021, 2024) = []
  /\ update_summary_cards sample_df [] (2021, 2024) =
     Some ("0", "nan", "Dacoity", "0").
Proof. split; vm_compute; reflexivity. Qed.

(** C9: with no unit selected the view has no rows, the total is 0, the
    unit count is 0 and the peak is the first canonical column; the cards
    render these as "0", "0" and "Dacoity". *)
Theorem no_units_selected (df : DataFrame) (year_range : Z * Z) :
  filtered_df df [] year_range = []
  /\ total_cases (filtered_df df [] year_range) = 0
  /\ total_units (filtered_df df [] year_range) = 0%nat
  /\ peak_crime (filtered_df df [] year_range) = Some Dacoity
  /\ exists avg, update_summary_cards df [] year_range =
                 Some ("0", avg, "Dacoity", "0").
Proof.
  pose proof (filtered_df_no_units df year_range) as Hempty.
  rewrite Hempty. repeat split.
  exists "nan". now apply summary_of_empty_view.
Qed.

(** ** Default crime selections *)

Lemma crime_name_inj (c c' : Crime) :
  String.eqb (crime_name c) (crime_name c') = true -> c = c'.
Proof. destruct c, c'; cbn; intros E; first [reflexivity | discriminate]. Qed.

Lemma find_column (c : Crime) (cols : list Crime) (d : DataFrame) :
  In c cols ->
  find (fun e => String.eqb (crime_name (fst e)) (crime_name c))
       (cols_sum cols d)
  = Some (c, col_sum (crime_col c) d).
Proof.
  unfold cols_sum. induction cols as [|c0 cols IH]; [contradiction|].
  intros Hin. cbn [map find fst].
  destruct (String.eqb (crime_name c0) (crime_name c)) eqn:E.
  - apply crime_name_inj in E. now subst.
  - destruct Hin as [->|Hin]; [|now apply IH].
    rewrite String.eqb_refl in E. discriminate.
Qed.

(** A column of the per-date frame holds, date by date, the sum of that
    crime over the rows of the date. *)
Lemma crimes_column_sums (c : Crime) (cols : list Crime)
    (gs : list (Timestamp * list Row)) :
  In c cols ->
  crimes_column c (map (fun g => (fst g, cols_sum cols (snd g))) gs)
  = map (fun g => col_sum (crime_col c) (snd g)) gs.
Proof.
  intros Hin. unfold crimes_column.
  induction gs as [|g gs IH]; [reflexivity|].
  cbn [map flat_map]. cbv beta. cbn [snd].
  rewrite find_column by exact Hin.
  cbn [snd app]. now rewrite IH.
Qed.

(** C8: with no crime selected (an empty list, or no value at all) the pie
    chart is drawn over the first five canonical columns and the trend
    chart over Murder, Robbery and Theft. *)
Theorem default_crime_selection (view : DataFrame)
    (selected_crimes : option (list Crime)) :
  truthy selected_crimes = false ->
  pie_crimes selected_crimes = firstn 5 crime_columns
  /\ create_crime_pie_chart view selected_crimes =
     mkPie ["Dacoity"; "Robbery"; "Murder"; "Speedy_Trial"; "Riot"]
           (map (fun c => col_sum (crime_col c) view)
                [Dacoity; Robbery; Murder; Speedy_Trial; Riot])
  /\ trend_crimes selected_crimes = [Murder; Robbery; Theft]
  /\ create_crime_trends_chart view selected_crimes =
     map (fun c =>
            mkScatter (crime_name c) (map fst (groupby Date view))
              (map (fun g => col_sum (crime_col c) (snd g))
                   (groupby Date view)))
         [Murder; Robbery; Theft].
Proof.
  intros Hfalsy.
  assert (Hpie : pie_crimes selected_crimes = firstn 5 crime_columns).
  { unfold pie_crimes. now rewrite Hfalsy. }
  assert (Htrend : trend_crimes selected_crimes = [Murder; Robbery; Theft]).
  { unfold trend_crimes. now rewrite Hfalsy. }
  split; [exact Hpie|]. split; [|split; [exact Htrend|]].
  - unfold create_crime_pie_chart, crime_totals. rewrite Hpie. reflexivity.
  - unfold create_crime_trends_chart, monthly_crimes. rewrite Htrend.
    cbn [map]. rewrite !crimes_column_sums by (cbn; tauto).
    rewrite map_map. reflexivity.
Qed.

Lemma default_crime_selection_witness :
  pie_crimes (Some []) = firstn 5 crime_columns
  /\ trend_crimes None = [Murder; Robbery; Theft].
Proof.
  split.
  - apply (default_crime_selection sample_df (Some []) eq_refl).
  - apply (default_crime_selection sample_df None eq_refl).
Defined.

(** ** Row order of the view *)

Lemma kept_index_shift (p : Row -> bool) (d : DataFrame) (i : nat) :
  kept_index p (S i) d = map S (kept_index p i d).
Proof.
  revert i. induction d as [|r d IH]; intros i; [reflexivity|].
  cbn [kept_index]. rewrite (IH (S i)).
  destruct (p r); reflexivity.
Qed.

Lemma kept_index_bound (p : Row -> bool) (d : DataFrame) (i j : nat) :
  In j (kept_index p i d) -> (i <= j)%nat.
Proof.
  revert i. induction d as [|r d IH]; intros i; cbn [kept_index];
    [contradiction|].
  destruct (p r); cbn [In]; intros Hin.
  - destruct Hin as [<-|Hin]; [lia|]. apply IH in Hin. lia.
  - apply IH in Hin. lia.
Qed.

Lemma kept_index_increasing (p : Row -> bool) (d : DataFrame) (i : nat) :
  StronglySorted lt (kept_index p i d).
Proof.
  revert i. induction d as [|r d IH]; intros i; cbn [kept_index];
    [constructor|].
  destruct (p r); [|apply IH].
  constructor; [apply IH|].
  apply Forall_forall. intros j Hj. apply kept_index_bound in Hj. lia.
Qed.

Lemma kept_index_In (p : Row -> bool) (d : DataFrame) (j : nat) :
  In j (kept_index p 0 d) <->
  exists r, nth_error d j = Some r /\ p r = true.
Proof.
  revert j. induction d as [|r d IH]; intros j; cbn [kept_index].
  - split; [contradiction|]. intros [r [Hnth _]].
    destruct j; discriminate.
  - rewrite kept_index_shift.
    assert (Htail : In j (map S (kept_index p 0 d)) <->
                    exists r', nth_error (r :: d) j = Some r' /\ p r' = true
                               /\ j <> 0%nat).
    { rewrite in_map_iff. split.
      - intros [j' [<- Hin]]. apply IH in Hin.
        destruct Hin as [r' [Hnth Hp]]. exists r'. cbn. auto.
      - intros [r' [Hnth [Hp Hj]]]. destruct j as [|j']; [contradiction|].
        exists j'. split; [reflexivity|]. apply IH. exists r'. auto. }
    destruct (p r) eqn:Epr; cbn [In]; rewrite Htail.
    + split.
      * intros [<-|[r' [Hnth [Hp _]]]]; [exists r; auto | exists r'; auto].
      * intros [r' [Hnth Hp]]. destruct j as [|j']; [now left|].
        right. exists r'. auto.
    + split.
      * intros [r' [Hnth [Hp _]]]. exists r'. auto.
      * intros [r' [Hnth Hp]]. exists r'. repeat split; try assumption.
        intros ->. cbn in Hnth. congruence.
Qed.

Lemma filter_by_index (p : Row -> bool) (d : DataFrame) :
  map Some (filter p d) = map (nth_error d) (kept_index p 0 d).
Proof.
  induction d as [|r d IH]; [reflexivity|].
  cbn [filter kept_index]. rewrite kept_index_shift.
  destruct (p r); cbn [map]; rewrite map_map; cbn [nth_error];
    now rewrite IH.
Qed.

(** C10: the view lists the matching rows of the dataset in dataset order,
    each once: its rows are the dataset rows at the strictly increasing
    positions of the rows the mask keeps.  The data tab shows the rows at
    the first fifty of these positions. *)
Theorem filtered_df_in_order (df : DataFrame) (units : list string)
    (year_range : Z * Z) (selected_crimes : option (list Crime)) :
  StronglySorted lt (kept_index (row_mask units year_range) 0 df)
  /\ (forall i, In i (kept_index (row_mask units year_range) 0 df) <->
                exists r, nth_error df i = Some r
                          /\ row_mask units year_range r = true)
  /\ map Some (filtered_df df units year_range) =
     map (nth_error df) (kept_index (row_mask units year_range) 0 df)
  /\ render_tab_content df "tab-data" units year_range selected_crimes =
     Some (RawData (display_df df units year_range))
  /\ map Some (display_df df units year_range) =
     map (nth_error df)
         (firstn 50 (kept_index (row_mask units year_range) 0 df)).
Proof.
  split; [apply kept_index_increasing|].
  split; [intros i; apply kept_index_In|].
  split; [apply filter_by_index|].
  split; [reflexivity|].
  unfold display_df, head, filtered_df.
  now rewrite <- !firstn_map, filter_by_index.
Qed.

(** ** Distinct values *)

Lemma unique_In (vals : list string) (x : string) :
  In x (unique vals) <-> In x vals.
Proof.
  induction vals as [|v vals IH]; cbn [unique In]; [reflexivity|].
  rewrite filter_In, IH.
  destruct (String.eqb_spec v x) as [->|Hne]; cbn [negb].
  - intuition.
  - intuition congruence.
Qed.

Lemma unique_NoDup (vals : list string) : NoDup (unique vals).
Proof.
  induction vals as [|v vals IH]; cbn [unique]; constructor.
  - rewrite filter_In, String.eqb_refl. cbn. intros [_ H]. discriminate.
  - now apply NoDup_filter.
Qed.

(** ** Groups partition the frame *)

Lemma add_to_group_concat {K : Type} `{KeyOrder K} (k : K) (r : Row)
    (gs : list (K * list Row)) :
  Permutation (List.concat (map snd (add_to_group k r gs)))
              (r :: List.concat (map snd gs)).
Proof.
  induction gs as [|[k0 rs] gs IH]; cbn [add_to_group map snd List.concat].
  - cbn. reflexivity.
  - destruct (key_compare k k0); cbn [map snd List.concat].
    + rewrite <- app_assoc. cbn [app]. symmetry. apply Permutation_middle.
    + cbn. reflexivity.
    + rewrite IH. symmetry. apply Permutation_middle.
Qed.

Lemma groupby_concat {K : Type} `{KeyOrder K} (key : Row -> K)
    (d : DataFrame) :
  Permutation (List.concat (map snd (groupby key d))) d.
Proof.
  induction d as [|r d IH] using rev_ind; [reflexivity|].
  unfold groupby. rewrite fold_left_app. cbn [fold_left].
  fold (groupby key d). rewrite add_to_group_concat, IH.
  apply Permutation_cons_append.
Qed.

Lemma series_sum_app (l l' : list Z) :
  series_sum (l ++ l') = series_sum l + series_sum l'.
Proof.
  induction l as [|x l IH]; cbn [app].
  - unfold series_sum at 2. cbn. lia.
  - rewrite !series_sum_cons, IH. lia.
Qed.

Lemma agg_sum_total {K : Type} (col : Row -> Z) (gs : list (K * list Row)) :
  series_sum (map snd (agg_sum col gs)) = col_sum col (List.concat (map snd gs)).
Proof.
  unfold agg_sum, col_sum.
  induction gs as [|g gs IH]; cbn [map snd List.concat]; [reflexivity|].
  rewrite series_sum_cons, map_app, series_sum_app. cbn [snd] in *.
  now rewrite IH.
Qed.

Lemma groupby_sum_total {K : Type} `{KeyOrder K} (key : Row -> K)
    (col : Row -> Z) (d : DataFrame) :
  series_sum (map snd (agg_sum col (groupby key d))) = col_sum col d.
Proof.
  rewrite agg_sum_total. unfold col_sum.
  apply series_sum_Permutation, Permutation_map, groupby_concat.
Qed.

(** X2: the points of the monthly trend chart add up to the total on the
    "Total Cases" card: grouping by date loses no row and counts none
    twice. *)
Theorem monthly_trend_adds_up (view : DataFrame) :
  series_sum (chart_y (create_monthly_trend_chart view)) = total_cases view.
Proof.
  unfold create_monthly_trend_chart, monthly_data, total_cases.
  cbn [chart_y]. apply groupby_sum_total.
Qed.



(** ** The units card and the unit ranking *)

(** X1: the "Units" card counts selected units only: every unit it counts
    is a selected unit with a row in the view, so the count never exceeds
    the number of selected units. *)
Theorem total_units_bounded (df : DataFrame) (units : list string)
    (year_range : Z * Z) :
  (forall u, In u (unique (map Unit (filtered_df df units year_range))) ->
             In u units /\ exists r, In r df /\ Unit r = u)
  /\ (total_units (filtered_df df units year_range) <= List.length units)%nat.
Proof.
  assert (Hsel : forall u,
             In u (unique (map Unit (filtered_df df units year_range))) ->
             In u units /\ exists r, In r df /\ Unit r = u).
  { intros u Hu. apply unique_In, in_map_iff in Hu.
    destruct Hu as [r [<- Hr]]. unfold filtered_df in Hr.
    apply filter_In in Hr. destruct Hr as [Hr Hmask].
    destruct year_range as [lo hi]. apply row_mask_spec in Hmask.
    split; [tauto | eauto]. }
  split; [exact Hsel|].
  unfold total_units. apply NoDup_incl_length; [apply unique_NoDup|].
  intros u Hu. now apply Hsel.
Qed.

Lemma groupby_Unit_count (view : DataFrame) :
  List.length (groupby Unit view) = total_units view.
Proof.
  unfold total_units. rewrite <- (length_map fst).
  apply Permutation_length, NoDup_Permutation.
  - apply ascending_NoDup, groupby_ascending.
  - apply unique_NoDup.
  - intros u. rewrite groupby_labels, unique_In, in_map_iff.
    split; intros [r [H1 H2]]; exists r; tauto.
Qed.

Lemma insert_desc_Permutation {L : Type} (x : L * Z) (s : list (L * Z)) :
  Permutation (insert_desc x s) (x :: s).
Proof.
  induction s as [|y s IH]; cbn [insert_desc]; [reflexivity|].
  destruct (snd x <? snd y); [|reflexivity].
  rewrite IH. apply perm_swap.
Qed.

Lemma sort_values_desc_Permutation {L : Type} (s : list (L * Z)) :
  Permutation (sort_values_desc s) s.
Proof.
  induction s as [|x s IH]; cbn; [reflexivity|].
  rewrite insert_desc_Permutation. now constructor.
Qed.

Lemma sorted_app_order {A : Type} (R : A -> A -> Prop) (l l' : list A) :
  StronglySorted R (l ++ l') ->
  forall a b, In a l -> In b l' -> R a b.
Proof.
  induction l as [|x l IH]; cbn [app]; intros Hs a b Ha Hb;
    [contradiction|].
  apply StronglySorted_inv in Hs. destruct Hs as [Hs Hall].
  destruct Ha as [<-|Ha]; [|now apply IH].
  rewrite Forall_forall in Hall. apply Hall, in_or_app. now right.
Qed.

(** X5: the ranking is a top ten: a unit of the view is either ranked with
    its total, or its total is no larger than any ranked total. *)
Theorem unit_totals_top (view : DataFrame) (r : Row) :
  In r view ->
  In (Unit r, col_sum Total_Cases (rows_with Unit (Unit r) view))
     (unit_totals view)
  \/ (forall e, In e (unit_totals view) ->
        col_sum Total_Cases (rows_with Unit (Unit r) view) <= snd e).
Proof.
  intros Hr.
  set (t := col_sum Total_Cases (rows_with Unit (Unit r) view)).
  set (s := sort_values_desc (agg_sum Total_Cases (groupby Unit view))).
  assert (Hin : In (Unit r, t) s).
  { apply (Permutation_in _
             (Permutation_sym (sort_values_desc_Permutation _))).
    assert (Hl : In (Unit r) (map fst (groupby Unit view))).
    { apply groupby_labels. eauto. }
    apply in_map_iff in Hl. destruct Hl as [[u rs] [Hu Hg]].
    cbn in Hu. subst u. apply agg_sum_In. exists rs. split; [assumption|].
    apply groupby_group in Hg. subst rs. reflexivity. }
  unfold unit_totals. fold s.
  rewrite <- (firstn_skipn 10 s) in Hin. apply in_app_or in Hin.
  destruct Hin as [Hin|Hin]; [now left | right].
  intros e He.
  pose proof (sort_values_desc_sorted
                (agg_sum Total_Cases (groupby Unit view))) as Hs.
  fold s in Hs. rewrite <- (firstn_skipn 10 s) in Hs.
  exact (sorted_app_order _ _ _ Hs e (Unit r, t) He Hin).
Qed.

Lemma unit_totals_top_witness :
  In ("CMP", 2) (unit_totals sample_df)
  \/ (forall e, In e (unit_totals sample_df) -> 2 <= snd e).
Proof.
  apply (unit_totals_top sample_df
           (mkRow "January" "CMP" (one_case Murder 2) 2 (mkTimestamp 2021 1))).
  cbn. tauto.
Defined.



(** ** Seasonal averages are numbers *)

(** X7: every point of the seasonal chart is a number: a month is listed
    only if it has rows, so no mean is taken over an empty group. *)
Theorem monthly_avg_defined (view : DataFrame) :
  Forall (fun a => a <> None)
         (chart_y (create_seasonal_patterns_chart view)).
Proof.
  unfold create_seasonal_patterns_chart. cbn [chart_y].
  apply Forall_forall. intros a Ha. apply in_map_iff in Ha.
  destruct Ha as [[m a'] [Heq Hin]]. cbn in Heq. subst a'.
  unfold monthly_avg in Hin. apply agg_mean_In in Hin.
  destruct Hin as [rs [Hin ->]]. apply groupby_nonempty in Hin.
  destruct rs; [congruence | discriminate].
Qed.

(** ** What the cards print *)

Lemma group_thousands_step (a b c d : ascii) (rest : list ascii) :
  group_thousands (a :: b :: c :: d :: rest)
  = a :: b :: c :: ","%char :: group_thousands (d :: rest).
Proof. reflexivity. Qed.

Lemma group_thousands_In (n : nat) :
  forall (ds : list ascii) (x : ascii),
    (List.length ds <= n)%nat ->
    In x (group_thousands ds) -> x = ","%char \/ In x ds.
Proof.
  induction n as [|n IH]; intros ds x Hlen Hin.
  - destruct ds; [now right | cbn in Hlen; lia].
  - destruct ds as [|a [|b [|c [|d rest]]]]; try (now right).
    rewrite group_thousands_step in Hin. cbn [In] in Hin.
    destruct Hin as [<-|[<-|[<-|[<-|Hin]]]];
      try (right; cbn [In]; tauto); [now left|].
    apply IH in Hin; [|cbn [List.length] in *; lia].
    destruct Hin as [->|Hin]; [now left|].
    right. cbn [In] in *. tauto.
Qed.

Lemma string_of_uint_plain (d : Decimal.uint) :
  Forall plain (list_ascii_of_string (NilEmpty.string_of_uint d)).
Proof.
  induction d; cbn [NilEmpty.string_of_uint list_ascii_of_string];
    constructor; try assumption; unfold plain; discriminate.
Qed.

Lemma thousands_plain (n : N) :
  Forall plain (list_ascii_of_string (thousands n)).
Proof.
  unfold thousands. rewrite list_ascii_of_string_of_list_ascii.
  apply Forall_forall. intros x Hx. apply in_rev in Hx.
  apply (group_thousands_In _ _ _ (le_n _)) in Hx.
  destruct Hx as [->|Hx]; [unfold plain; discriminate|].
  apply in_rev in Hx. unfold digits, NilZero.string_of_uint in Hx.
  destruct (N.to_uint n) eqn:E;
    try (rewrite <- E in Hx;
         exact (proj1 (Forall_forall _ _) (string_of_uint_plain _) x Hx)).
  cbn in Hx. destruct Hx as [<-|[]]. unfold plain. discriminate.
Qed.

(** A number is never printed as [nan]. *)
Lemma format_float_number (q : Q) : format_float (Some q) <> "nan".
Proof.
  unfold format_float. destruct (Qcompare q 0).
  - intros E. pose proof (thousands_plain (Z.to_N (round_half_even q))) as P.
    rewrite E in P. inversion P as [|? ? Hn _]. now apply Hn.
  - cbn [String.append]. discriminate.
  - intros E. pose proof (thousands_plain (Z.to_N (round_half_even q))) as P.
    rewrite E in P. inversion P as [|? ? Hn _]. now apply Hn.
Qed.

(** X4: the summary callback never raises, its peak is always the name of
    one of the sixteen crime columns, and the "Avg Monthly" card reads
    [nan] exactly when the selection matches no row. *)
Theorem summary_cards_shape (df : DataFrame) (units : list string)
    (year_range : Z * Z) :
  exists total avg peak count,
    update_summary_cards df units year_range
    = Some (total, avg, crime_name peak, count)
    /\ In peak crime_columns
    /\ (avg = "nan" <-> filtered_df df units year_range = []).
Proof.
  unfold update_summary_cards.
  set (view := filtered_df df units year_range).
  unfold peak_crime, cols_sum, crime_columns at 1. cbn [map idxmax].
  eexists _, _, _, _. split; [reflexivity|].
  split; [apply crime_columns_complete|].
  split.
  - intros Hnan. destruct view as [|r view'] eqn:Ev; [reflexivity|].
    exfalso.
    assert (Hne : r :: view' <> []) by discriminate.
    pose proof (monthly_totals_nonempty _ Hne) as Hm.
    unfold avg_monthly, series_mean in Hnan.
    destruct (map snd (monthly_totals (r :: view'))) eqn:Hv.
    + destruct (monthly_totals (r :: view')); [congruence | discriminate].
    + now apply format_float_number in Hnan.
  - intros ->. reflexivity.
Qed.

(** ** Trend traces *)

Lemma traces_over (view : DataFrame) (cols cs : list Crime) :
  incl cs cols ->
  Forall2 (fun c t =>
             trace_x t = chart_x (create_monthly_trend_chart view)
             /\ List.length (trace_y t) = List.length (trace_x t)
             /\ series_sum (trace_y t) = col_sum (crime_col c) view)
          cs
          (map (fun crime =>
                  mkScatter (crime_name crime)
                            (map fst (monthly_crimes view cols))
                            (crimes_column crime (monthly_crimes view cols)))
               cs).
Proof.
  intros Hsub. unfold monthly_crimes.
  induction cs as [|c cs IH]; cbn [map]; constructor.
  - cbn [trace_x trace_y].
    rewrite crimes_column_sums by (apply Hsub; now left).
    unfold create_monthly_trend_chart, monthly_data. cbn [chart_x].
    rewrite agg_sum_labels, !map_map, !length_map. cbn [fst].
    repeat split.
    rewrite <- (groupby_sum_total Date (crime_col c) view).
    unfold agg_sum. now rewrite map_map.
  - apply IH. intros c' Hc'. apply Hsub. now right.
Qed.

(** X8: for a selection without repeats, the trend chart has one trace per
    drawn crime, in order and named after it; every trace runs over the
    dates of the monthly trend chart, has one value per date, and its
    values add up to that crime's total over the view. *)
Theorem crime_trends_traces (view : DataFrame)
    (selected_crimes : option (list Crime)) :
  NoDup (selection selected_crimes) ->
  map trace_name (create_crime_trends_chart view selected_crimes)
  = map crime_name (trend_crimes selected_crimes)
  /\ Forall2 (fun c t =>
                trace_x t = chart_x (create_monthly_trend_chart view)
                /\ List.length (trace_y t) = List.length (trace_x t)
                /\ series_sum (trace_y t) = col_sum (crime_col c) view)
             (trend_crimes selected_crimes)
             (create_crime_trends_chart view selected_crimes).
Proof.
  intros _. unfold create_crime_trends_chart. cbv zeta.
  split; [now rewrite map_map|].
  apply traces_over. apply incl_refl.
Qed.

Lemma crime_trends_traces_witness :
  map trace_name (create_crime_trends_chart sample_df (Some [Theft; Murder]))
  = ["Theft"; "Murder"].
Proof.
  apply (crime_trends_traces sample_df (Some [Theft; Murder])).
  cbn [selection]. repeat constructor; cbn [In]; intuition discriminate.
Defined.

(** ** Tabs *)

(** X9: the raw-data tab shows the whole view when it has at most fifty
    rows and exactly fifty rows otherwise. *)
Theorem display_df_rows (df : DataFrame) (units : list string)
    (year_range : Z * Z) :
  List.length (display_df df units year_range)
  = Nat.min 50 (List.length (filtered_df df units year_range))
  /\ ((List.length (filtered_df df units year_range) <= 50)%nat ->
      display_df df units year_range = filtered_df df units year_range).
Proof.
  unfold display_df, head. split.
  - apply length_firstn.
  - apply firstn_all2.
Qed.

Lemma display_df_rows_witness :
  display_df sample_df ["DMP"] (2021, 2022)
  = filtered_df sample_df ["DMP"] (2021, 2022).
Proof.
  apply (proj2 (display_df_rows sample_df ["DMP"] (2021, 2022))).
  vm_compute. lia.
Defined.

(** ** Narrowing and splitting a selection *)

(** X10: narrowing composes: selecting from a wider view gives the same
    rows as selecting from the dataset directly. *)
Theorem filtered_df_narrow (df : DataFrame) (units units' : list string)
    (lo hi lo' hi' : Z) :
  incl units units' -> lo' <= lo -> hi <= hi' ->
  filtered_df (filtered_df df units' (lo', hi')) units (lo, hi)
  = filtered_df df units (lo, hi).
Proof.
  intros Hincl Hlo Hhi. unfold filtered_df.
  induction df as [|r df IH]; [reflexivity|]. cbn [filter].
  destruct (row_mask units (lo, hi) r) eqn:E.
  - assert (E' : row_mask units' (lo', hi') r = true).
    { apply row_mask_spec in E. apply row_mask_spec.
      split; [apply Hincl; tauto | lia]. }
    rewrite E'. cbn [filter]. rewrite E. now rewrite IH.
  - destruct (row_mask units' (lo', hi') r); [cbn [filter]; rewrite E|];
      exact IH.
Qed.

Lemma filtered_df_narrow_witness :
  filtered_df (filtered_df sample_df ["DMP"; "CMP"] (2021, 2024))
              ["DMP"] (2022, 2022)
  = filtered_df sample_df ["DMP"] (2022, 2022).
Proof.
  apply filtered_df_narrow; [|lia|lia].
  intros u [<-|[]]. now left.
Defined.

(** X11: totals of adjacent year ranges add up to the total of the joined
    range. *)
Theorem total_cases_split (df : DataFrame) (units : list string)
    (lo mid hi : Z) :
  lo - 1 <= mid <= hi ->
  total_cases (filtered_df df units (lo, hi))
  = total_cases (filtered_df df units (lo, mid))
    + total_cases (filtered_df df units (mid + 1, hi)).
Proof.
  intros Hmid. unfold total_cases, col_sum, filtered_df.
  induction df as [|r df IH]; [reflexivity|]. cbn [filter].
  destruct (row_mask units (lo, hi) r) eqn:E1,
           (row_mask units (lo, mid) r) eqn:E2,
           (row_mask units (mid + 1, hi) r) eqn:E3;
    cbn [map]; rewrite ?series_sum_cons;
    repeat match goal with
           | H : row_mask _ _ _ = true |- _ => apply row_mask_spec in H
           | H : row_mask _ _ _ = false |- _ =>
               apply not_true_iff_false in H; rewrite row_mask_spec in H
           end;
    destruct (Z_le_gt_dec (Year r) mid);
    first [lia | exfalso; intuition lia].
Qed.

Lemma total_cases_split_witness :
  total_cases (filtered_df sample_df ["DMP"] (2021, 2023))
  = total_cases (filtered_df sample_df ["DMP"] (2021, 2021))
    + total_cases (filtered_df sample_df ["DMP"] (2022, 2023)).
Proof. apply (total_cases_split sample_df ["DMP"] 2021 2021 2023). lia. Defined.

(** ** The options of the unit dropdown *)

Lemma insert_sorted_In (x z : string) (l : list string) :
  In z (insert_sorted x l) <-> z = x \/ In z l.
Proof.
  induction l as [|y l IH]; cbn [insert_sorted In].
  - intuition congruence.
  - destruct (key_compare x y); cbn [In]; rewrite ?IH; intuition congruence.
Qed.

Lemma insert_sorted_ascending (x : string) (l : list string) :
  ascending l -> ~ In x l -> ascending (insert_sorted x l).
Proof.
  unfold ascending.
  induction l as [|y l IH]; cbn [insert_sorted]; intros Hs Hx.
  - constructor; constructor.
  - pose proof Hs as Hs0.
    apply StronglySorted_inv in Hs. destruct Hs as [Hs Hall].
    destruct (key_compare x y) eqn:E.
    + apply key_compare_eq in E. subst. exfalso. apply Hx. now left.
    + constructor; [exact Hs0|]. constructor; [exact E|].
      eapply Forall_impl; [|exact Hall]. cbn.
      intros a Ha. eapply key_compare_trans; eassumption.
    + constructor.
      * apply IH; [exact Hs|]. intros Hin. apply Hx. now right.
      * apply Forall_forall. intros z Hz. apply insert_sorted_In in Hz.
        destruct Hz as [->|Hz]; [now apply key_compare_gt|].
        rewrite Forall_forall in Hall. now apply Hall.
Qed.

Lemma sorted_In (l : list string) (z : string) :
  In z (sorted l) <-> In z l.
Proof.
  induction l as [|x l IH]; cbn; [reflexivity|].
  rewrite insert_sorted_In, IH. intuition congruence.
Qed.

Lemma sorted_ascending (l : list string) : NoDup l -> ascending (sorted l).
Proof.
  induction 1 as [|x l Hx Hnd IH]; cbn; [constructor|].
  apply insert_sorted_ascending; [exact IH|]. now rewrite sorted_In.
Qed.

(** Two strictly ascending lists with the same members are equal. *)
Lemma ascending_unique {K : Type} `{KeyOrderLaws K} (l1 : list K) :
  forall l2 : list K,
    ascending l1 -> ascending l2 ->
    (forall x, In x l1 <-> In x l2) -> l1 = l2.
Proof.
  unfold ascending.
  induction l1 as [|a l1 IH]; intros [|b l2] Hs1 Hs2 Hmem.
  - reflexivity.
  - exfalso. apply (Hmem b). now left.
  - exfalso. apply (Hmem a). now left.
  - apply StronglySorted_inv in Hs1, Hs2.
    destruct Hs1 as [Hs1 Hall1], Hs2 as [Hs2 Hall2].
    rewrite Forall_forall in Hall1, Hall2.
    assert (Hab : a = b).
    { destruct (proj1 (Hmem a) (or_introl eq_refl)) as [Hba|Ha];
        [congruence|].
      destruct (proj2 (Hmem b) (or_introl eq_refl)) as [Heq|Hb];
        [congruence|].
      pose proof (key_compare_trans _ _ _ (Hall1 b Hb) (Hall2 a Ha)) as Hlt.
      rewrite key_compare_refl in Hlt. discriminate. }
    subst b. f_equal. apply IH; try assumption.
    intros x. split; intros Hx.
    + destruct (proj1 (Hmem x) (or_intror Hx)) as [<-|Hx2]; [|exact Hx2].
      pose proof (Hall1 a Hx) as Hlt.
      rewrite key_compare_refl in Hlt. discriminate.
    + destruct (proj2 (Hmem x) (or_intror Hx)) as [<-|Hx1]; [|exact Hx1].
      pose proof (Hall2 a Hx) as Hlt.
      rewrite key_compare_refl in Hlt. discriminate.
Qed.

(** X12: the unit dropdown offers exactly the units that occur in the
    dataset, each once, in ascending order; these are the group labels of
    a group-by on the unit column, in the same order. *)
Theorem police_units_options (df : DataFrame) :
  StronglySorted (fun u v => String.compare u v = Lt) (police_units df)
  /\ (forall u, In u (police_units df) <-> exists r, In r df /\ Unit r = u)
  /\ police_units df = map fst (groupby Unit df)
  /\ List.length (police_units df) = total_units df.
Proof.
  assert (Hasc : ascending (police_units df)).
  { apply sorted_ascending, unique_NoDup. }
  assert (Hmem : forall u, In u (police_units df) <->
                           exists r, In r df /\ Unit r = u).
  { intros u. unfold police_units.
    rewrite sorted_In, unique_In, in_map_iff.
    split; intros [r [H1 H2]]; exists r; tauto. }
  assert (Heq : police_units df = map fst (groupby Unit df)).
  { apply ascending_unique; [exact Hasc | apply groupby_ascending|].
    intros u. now rewrite Hmem, groupby_labels. }
  split; [exact Hasc|]. split; [exact Hmem|]. split; [exact Heq|].
  rewrite Heq, length_map. apply groupby_Unit_count.
Qed.

(** ** Tabs of an empty view *)




(** ** The peak card against the pie chart *)

Lemma peak_crime_max (view : DataFrame) (p c : Crime) :
  peak_crime view = Some p ->
  col_sum (crime_col c) view <= col_sum (crime_col p) view.
Proof.
  intros Hp.
  set (f := fun c => col_sum (crime_col c) view).
  pose (m := idxmax_from (Dacoity, f Dacoity)
               (map (fun c => (c, f c)) (List.tl crime_columns))).
  change (Some m = Some p) in Hp.
  assert (Hs : exists pre post,
             crime_columns = pre ++ m :: post
             /\ (forall c, In c pre -> f c < f m)
             /\ (forall c, In c post -> f c <= f m))
    by exact (idxmax_from_split f (List.tl crime_columns) Dacoity).
  clearbody m. assert (Hmp : m = p) by congruence. subst m.
  destruct Hs as [pre [post [Hsplit [Hpre Hpost]]]].
  fold (f c) (f p).
  pose proof (crime_columns_complete c) as Hin.
  rewrite Hsplit in Hin.
  apply in_app_or in Hin. destruct Hin as [Hin|[->|Hin]].
  - specialize (Hpre c Hin). lia.
  - lia.
  - now apply Hpost.
Qed.

(** X14: whatever crimes are drawn, no slice of the pie chart is larger
    than the column total of the crime on the "Peak Crime" card. *)
Theorem pie_slices_below_peak (view : DataFrame)
    (selected_crimes : option (list Crime)) (p : Crime) :
  peak_crime view = Some p ->
  Forall (fun v => v <= col_sum (crime_col p) view)
         (pie_values (create_crime_pie_chart view selected_crimes)).
Proof.
  intros Hp. unfold create_crime_pie_chart, crime_totals, cols_sum.
  cbn [pie_values]. rewrite map_map. cbn [snd].
  apply Forall_forall. intros v Hv. apply in_map_iff in Hv.
  destruct Hv as [c [<- _]]. now apply peak_crime_max.
Qed.

Lemma pie_slices_below_peak_witness :
  Forall (fun v => v <= col_sum (crime_col Theft) sample_df)
         (pie_values (create_crime_pie_chart sample_df None)).
Proof. apply pie_slices_below_peak. reflexivity. Defined.
